(** * Binocular Vision Lab: optical geometry and parameter state

    Shallow embedding of the TypeScript sources:
    - [constants.ts] (src/unnamed/part_000) and [types.ts];
    - the vergence [useEffect] and [handleAnalyze] of [App] (src/unnamed/part_001);
    - [Slider] and [updateParam] of [Controls.tsx], and [analyzeSimulation];
    - the [halfBaseLine] / [fov] computations, [handleDragEnd] and the
      part of the god view's scene graph it reads, of [SimulationCanvas.tsx].

    JavaScript numbers are modelled by real numbers wherever the inputs are
    finite and no division by zero occurs; [JSNum] adds the IEEE infinities
    and NaN where the claims are about non-finite values or division by zero.
    Rounding is not modelled. *)

From Stdlib Require Import Reals Lra Factorial String List.
Import ListNotations.
Open Scope R_scope.

(** ** constants.ts *)

Definition MIN_IPD : R := 0.
Definition MAX_IPD : R := 20000.
Definition MIN_DISTANCE : R := 0.5.
Definition MAX_DISTANCE : R := 10.0.

(** ** types.ts *)

Inductive ObjectType := Cube | Sphere | Torus | Dna | Custom.

(** [SimulationParams]; [isViewLocked] is not declared in the interface but
    is part of [DEFAULT_PARAMS] and read and written by the canvas. *)
Record SimulationParams := {
  ipd : R;
  focalLength : R;
  targetDistance : R;
  vergenceAngle : R;
  objectType : ObjectType;
  wireframe : bool;
  cameraSize : R;
  objectScale : R;
  isPaused : bool;
  isViewLocked : bool;
  showBoundingBox : bool;
  showBackgroundBoundingBox : bool;
  showCameraBoundingBox : bool;
  showFOV : bool;
  customModelUrl : option string
}.

Definition DEFAULT_PARAMS : SimulationParams := {|
  ipd := 64;
  focalLength := 50;
  targetDistance := 2.5;
  vergenceAngle := 0;
  objectType := Torus;
  wireframe := false;
  cameraSize := 0.15;
  objectScale := 0.5;
  isPaused := false;
  isViewLocked := false;
  showBoundingBox := false;
  showBackgroundBoundingBox := false;
  showCameraBoundingBox := false;
  showFOV := true;
  customModelUrl := None
|}.

Record AIAnalysisResult := {
  title : string;
  explanation : string;
  depthImplications : string;
  technicalNote : string
}.

(** ** JavaScript numbers at the boundary

    Zero is taken as [+0]: no value of the program reaches [-0] on the
    paths modelled here. *)

Inductive JSNum := Fin (r : R) | PosInf | NegInf | NaN.

Definition isNaN (x : JSNum) : bool :=
  match x with NaN => true | _ => false end.

Definition sign_inf (a : R) : JSNum :=
  if Rlt_dec 0 a then PosInf else NegInf.

Definition jneg (x : JSNum) : JSNum :=
  match x with
  | Fin a => Fin (- a) | PosInf => NegInf | NegInf => PosInf | NaN => NaN
  end.

(** [x / y] *)
Definition jdiv (x y : JSNum) : JSNum :=
  match x, y with
  | NaN, _ | _, NaN => NaN
  | Fin a, Fin b =>
      if Req_EM_T b 0 then (if Req_EM_T a 0 then NaN else sign_inf a)
      else Fin (a / b)
  | Fin _, _ => Fin 0
  | PosInf, Fin b => if Rlt_dec b 0 then NegInf else PosInf
  | NegInf, Fin b => if Rlt_dec b 0 then PosInf else NegInf
  | _, _ => NaN
  end.

(** [x * y] *)
Definition jmul (x y : JSNum) : JSNum :=
  match x, y with
  | NaN, _ | _, NaN => NaN
  | Fin a, Fin b => Fin (a * b)
  | Fin a, PosInf | PosInf, Fin a =>
      if Req_EM_T a 0 then NaN else sign_inf a
  | Fin a, NegInf | NegInf, Fin a =>
      if Req_EM_T a 0 then NaN else jneg (sign_inf a)
  | PosInf, PosInf | NegInf, NegInf => PosInf
  | _, _ => NegInf
  end.

(** [Math.atan] *)
Definition jatan (x : JSNum) : JSNum :=
  match x with
  | Fin a => Fin (atan a)
  | PosInf => Fin (PI / 2)
  | NegInf => Fin (- (PI / 2))
  | NaN => NaN
  end.

(** [Math.min] and [Math.max] *)
Definition jmin (x y : JSNum) : JSNum :=
  match x, y with
  | NaN, _ | _, NaN => NaN
  | Fin a, Fin b => Fin (Rmin a b)
  | NegInf, _ | _, NegInf => NegInf
  | PosInf, v | v, PosInf => v
  end.

Definition jmax (x y : JSNum) : JSNum :=
  match x, y with
  | NaN, _ | _, NaN => NaN
  | Fin a, Fin b => Fin (Rmax a b)
  | PosInf, _ | _, PosInf => PosInf
  | NegInf, v | v, NegInf => v
  end.

Definition default_error_message : string := "分析失败".

(** ** Vergence effect of [App] (part_001, lines 18-30)

    [halfBaseM], [angleRad] and [angleDeg] as in the effect; [angleDeg] is
    the convergence half-angle, the stored value is twice it. *)

Definition angleDeg (ipd_mm targetDistance_m : R) : R :=
  let halfBaseM := (ipd_mm / 1000) / 2 in
  let angleRad := atan (halfBaseM / targetDistance_m) in
  angleRad * (180 / PI).

Definition vergence_of (ipd_mm targetDistance_m : R) : R :=
  angleDeg ipd_mm targetDistance_m * 2.

(** [{ ...p, vergenceAngle: a }] *)
Definition set_vergenceAngle (p : SimulationParams) (a : R) : SimulationParams := {|
  ipd := ipd p;
  focalLength := focalLength p;
  targetDistance := targetDistance p;
  vergenceAngle := a;
  objectType := objectType p;
  wireframe := wireframe p;
  cameraSize := cameraSize p;
  objectScale := objectScale p;
  isPaused := isPaused p;
  isViewLocked := isViewLocked p;
  showBoundingBox := showBoundingBox p;
  showBackgroundBoundingBox := showBackgroundBoundingBox p;
  showCameraBoundingBox := showCameraBoundingBox p;
  showFOV := showFOV p;
  customModelUrl := customModelUrl p
|}.

(** The state update [setParams(p => ({...p, vergenceAngle: angleDeg * 2}))]. *)
Definition vergence_effect (p : SimulationParams) : SimulationParams :=
  set_vergenceAngle p (vergence_of (ipd p) (targetDistance p)).

(** The same computation on JavaScript numbers, for inputs that may be
    zero or non-finite. *)
Definition angleDeg_js (ipd_mm targetDistance_m : JSNum) : JSNum :=
  let halfBaseM := jdiv (jdiv ipd_mm (Fin 1000)) (Fin 2) in
  let angleRad := jatan (jdiv halfBaseM targetDistance_m) in
  jmul angleRad (jdiv (Fin 180) (Fin PI)).

Definition vergence_js (ipd_mm targetDistance_m : JSNum) : JSNum :=
  jmul (angleDeg_js ipd_mm targetDistance_m) (Fin 2).

(** ** Camera rig of [SimulationCanvas.tsx] *)

(** [fov] memo of [SimulationCanvas] (lines 531-535). *)
Definition canvas_fov (focalLength_mm : R) : R :=
  let sensorHeight := 24 in
  let fovRadians := 2 * atan (sensorHeight / (2 * focalLength_mm)) in
  (fovRadians * 180) / PI.

(** [fov] memo of [CameraVisualizer] (lines 423-427). *)
Definition visualizer_fov (focalLength_mm : R) : R :=
  let sensorHeight := 24 in
  let fovRadians := 2 * atan (sensorHeight / (2 * focalLength_mm)) in
  (fovRadians * 180) / PI.

Definition Vec3 : Type := (R * R * R)%type.

(** Positions of the left and right eye cameras of [SimulationCanvas]
    (lines 527-529, 606 and 638). *)
Definition canvas_eye_positions (p : SimulationParams) : Vec3 * Vec3 :=
  let halfBaseLine := (ipd p * 0.001) / 2 in
  let camZ := targetDistance p in
  ((- halfBaseLine, 0, camZ), (halfBaseLine, 0, camZ)).

(** Positions of the two [CameraMesh]es of [CameraVisualizer]
    (lines 414-415, 487 and 493). *)
Definition visualizer_eye_positions (p : SimulationParams) : Vec3 * Vec3 :=
  let halfBaseLine := (ipd p * 0.001) / 2 in
  let camZ := targetDistance p in
  ((- halfBaseLine, 0, camZ), (halfBaseLine, 0, camZ)).

Definition vx (v : Vec3) : R := fst (fst v).
Definition vz (v : Vec3) : R := snd v.

(** ** Controls.tsx: [updateParam] and [Slider] *)

(** The numeric keys passed to [updateParam] by the five sliders and by
    [onParamChange] of the drag handler. *)
Inductive NumKey := K_ipd | K_targetDistance | K_focalLength | K_objectScale | K_cameraSize.

(** The boolean keys toggled by the buttons of [Controls]. *)
Inductive BoolKey :=
  K_isPaused | K_wireframe | K_showBoundingBox | K_showBackgroundBoundingBox
| K_showCameraBoundingBox | K_showFOV.

(** [min] and [max] of each [Slider]. *)
Definition slider_min (k : NumKey) : R :=
  match k with
  | K_ipd => MIN_IPD | K_targetDistance => MIN_DISTANCE | K_focalLength => 15
  | K_objectScale => 0.1 | K_cameraSize => 0.1
  end.

Definition slider_max (k : NumKey) : R :=
  match k with
  | K_ipd => MAX_IPD | K_targetDistance => MAX_DISTANCE | K_focalLength => 200
  | K_objectScale => 2.0 | K_cameraSize => 1.0
  end.

(** [setParams(prev => ({ ...prev, [key]: value }))] for a numeric key. *)
Definition set_num (k : NumKey) (v : R) (p : SimulationParams) : SimulationParams := {|
  ipd := match k with K_ipd => v | _ => ipd p end;
  focalLength := match k with K_focalLength => v | _ => focalLength p end;
  targetDistance := match k with K_targetDistance => v | _ => targetDistance p end;
  vergenceAngle := vergenceAngle p;
  objectType := objectType p;
  wireframe := wireframe p;
  cameraSize := match k with K_cameraSize => v | _ => cameraSize p end;
  objectScale := match k with K_objectScale => v | _ => objectScale p end;
  isPaused := isPaused p;
  isViewLocked := isViewLocked p;
  showBoundingBox := showBoundingBox p;
  showBackgroundBoundingBox := showBackgroundBoundingBox p;
  showCameraBoundingBox := showCameraBoundingBox p;
  showFOV := showFOV p;
  customModelUrl := customModelUrl p
|}.

Definition get_num (k : NumKey) (p : SimulationParams) : R :=
  match k with
  | K_ipd => ipd p | K_targetDistance => targetDistance p
  | K_focalLength => focalLength p | K_objectScale => objectScale p
  | K_cameraSize => cameraSize p
  end.

(** Boolean flags: [updateParam(key, !params[key])], and the view lock of
    [SimulationCanvas] ([isViewLocked], [toggleViewLock]). *)
Definition set_flags (p : SimulationParams) (pa vl wf bb bgb cb fv : bool)
  (o : ObjectType) (url : option string) : SimulationParams := {|
  ipd := ipd p;
  focalLength := focalLength p;
  targetDistance := targetDistance p;
  vergenceAngle := vergenceAngle p;
  objectType := o;
  wireframe := wf;
  cameraSize := cameraSize p;
  objectScale := objectScale p;
  isPaused := pa;
  isViewLocked := vl;
  showBoundingBox := bb;
  showBackgroundBoundingBox := bgb;
  showCameraBoundingBox := cb;
  showFOV := fv;
  customModelUrl := url
|}.

Definition toggle_flag (k : BoolKey) (p : SimulationParams) : SimulationParams :=
  let t k' b := match k, k' with
                | K_isPaused, K_isPaused | K_wireframe, K_wireframe
                | K_showBoundingBox, K_showBoundingBox
                | K_showBackgroundBoundingBox, K_showBackgroundBoundingBox
                | K_showCameraBoundingBox, K_showCameraBoundingBox
                | K_showFOV, K_showFOV => negb b
                | _, _ => b
                end in
  set_flags p (t K_isPaused (isPaused p)) (isViewLocked p) (t K_wireframe (wireframe p))
    (t K_showBoundingBox (showBoundingBox p))
    (t K_showBackgroundBoundingBox (showBackgroundBoundingBox p))
    (t K_showCameraBoundingBox (showCameraBoundingBox p))
    (t K_showFOV (showFOV p)) (objectType p) (customModelUrl p).

(** The [onChange] of the number text box of [Slider] (lines 58-61), given
    [val = parseFloat(e.target.value)]: [None] when [onChange] is not
    called, [Some v] when it is called with [v]. *)
Definition slider_number_input (min max : R) (val : JSNum) : option JSNum :=
  if isNaN val then None else Some (jmax (Fin min) (jmin (Fin max) val)).

(** UI operations that write [SimulationParams]. *)
Inductive UIEvent :=
| SliderNumber (k : NumKey) (val : JSNum)  (* number box, [val] = parseFloat of its text *)
| SliderRange (k : NumKey) (val : R)       (* range input *)
| ToggleFlag (k : BoolKey)
| SelectObject (o : ObjectType)            (* the four object buttons *)
| UploadModel (url : string)               (* handleFileUpload *)
| ToggleViewLock.

Definition apply_event (p : SimulationParams) (e : UIEvent) : SimulationParams :=
  match e with
  | SliderNumber k val =>
      match slider_number_input (slider_min k) (slider_max k) val with
      | Some (Fin v) => set_num k v p
      | _ => p   (* [None]: onChange not called; the clamped value is never infinite *)
      end
  | SliderRange k val => set_num k val p
  | ToggleFlag k => toggle_flag k p
  | SelectObject o =>
      set_flags p (isPaused p) (isViewLocked p) (wireframe p) (showBoundingBox p)
        (showBackgroundBoundingBox p) (showCameraBoundingBox p) (showFOV p)
        o (customModelUrl p)
  | UploadModel url =>
      set_flags p (isPaused p) (isViewLocked p) (wireframe p) (showBoundingBox p)
        (showBackgroundBoundingBox p) (showCameraBoundingBox p) (showFOV p)
        Custom (Some url)
  | ToggleViewLock =>
      set_flags p (isPaused p) (negb (isViewLocked p)) (wireframe p) (showBoundingBox p)
        (showBackgroundBoundingBox p) (showCameraBoundingBox p) (showFOV p)
        (objectType p) (customModelUrl p)
  end.

(** When the browser can deliver an event: a range input only reports
    values within its [min]/[max]; the object buttons are the four built-in
    shapes. The end of a drag in the god view is a transition of its own
    ([step_dragEnd]), since [handleDragEnd] reads the scene graph. *)
Definition ui_enabled (p : SimulationParams) (e : UIEvent) : Prop :=
  match e with
  | SliderRange k val => slider_min k <= val <= slider_max k
  | SelectObject o => o <> Custom
  | _ => True
  end.

(** ** analyzeSimulation (Controls.tsx, lines 366-419) *)

Record JSError := { message : string }.

Inductive Outcome (A : Type) := Resolved (a : A) | Rejected (e : JSError).
Arguments Resolved {A} a.
Arguments Rejected {A} e.

Definition missing_key_message : string :=
  "缺少 Gemini API 密钥。请检查您的环境配置。".
Definition no_response_message : string := "Gemini 没有响应".

(** [apiKey] is [process.env.API_KEY || '']; [generateContent] is what the
    awaited SDK call does (resolve to a response whose [text] may be
    missing or empty, or reject); [jsonParse] is [JSON.parse]. The prompt
    built from [params] is sent to the service and does not otherwise
    influence the result. *)
Definition analyzeSimulation (apiKey : string)
  (generateContent : Outcome (option string))
  (jsonParse : string -> Outcome AIAnalysisResult)
  (params : SimulationParams) : Outcome AIAnalysisResult :=
  if String.eqb apiKey "" then Rejected {| message := missing_key_message |}
  else
    match generateContent with
    | Rejected err => Rejected err                (* catch: rethrow *)
    | Resolved None => Rejected {| message := no_response_message |}
    | Resolved (Some text) =>
        if String.eqb text "" then Rejected {| message := no_response_message |}
        else jsonParse text                       (* a parse error is rethrown *)
    end.

(** ** State of [App] *)

(** A [THREE.Group] of the scene graph: its [position] and [rotation]
    (Euler angles), each as [(x, y, z)]. *)
Record Object3D := { position : Vec3; rotation : Vec3 }.

(** A group as React Three Fiber mounts it: at the origin, not rotated. *)
Definition fresh_group : Object3D := {| position := (0, 0, 0); rotation := (0, 0, 0) |}.

(** The state of [App] together with the part of the god view's scene
    graph that [handleDragEnd] reads: [meshRef] is the [<group ref={meshRef}>]
    of the god view's [SceneContent]; [gizmo] is the group that drei's
    [TransformControls] wraps its children in and attaches the translate
    gizmo to (no [object] prop is passed), so a drag moves [gizmo], not
    [meshRef]. *)
Record AppState := {
  params : SimulationParams;
  effectDeps : option (R * R);   (* [ipd], [targetDistance] the effect last ran with *)
  isAnalyzing : bool;
  error : option string;
  analysis : option AIAnalysisResult;
  meshRef : Object3D;
  gizmo : Object3D
}.

Definition init : AppState := {|
  params := DEFAULT_PARAMS; effectDeps := None;
  isAnalyzing := false; error := None; analysis := None;
  meshRef := fresh_group; gizmo := fresh_group
|}.

Definition with_params (s : AppState) (p : SimulationParams) : AppState := {|
  params := p; effectDeps := effectDeps s;
  isAnalyzing := isAnalyzing s; error := error s; analysis := analysis s;
  meshRef := meshRef s; gizmo := gizmo s
|}.

Definition set_isAnalyzing (s : AppState) (b : bool) : AppState := {|
  params := params s; effectDeps := effectDeps s;
  isAnalyzing := b; error := error s; analysis := analysis s;
  meshRef := meshRef s; gizmo := gizmo s
|}.

Definition set_error (s : AppState) (e : option string) : AppState := {|
  params := params s; effectDeps := effectDeps s;
  isAnalyzing := isAnalyzing s; error := e; analysis := analysis s;
  meshRef := meshRef s; gizmo := gizmo s
|}.

Definition set_analysis (s : AppState) (a : option AIAnalysisResult) : AppState := {|
  params := params s; effectDeps := effectDeps s;
  isAnalyzing := isAnalyzing s; error := error s; analysis := a;
  meshRef := meshRef s; gizmo := gizmo s
|}.

(** The vergence effect running after a render whose dependencies changed. *)
Definition run_vergence_effect (s : AppState) : AppState := {|
  params := vergence_effect (params s);
  effectDeps := Some (ipd (params s), targetDistance (params s));
  isAnalyzing := isAnalyzing s; error := error s; analysis := analysis s;
  meshRef := meshRef s; gizmo := gizmo s
|}.

(** [handleAnalyze] (part_001, lines 32-43). [analyze] stands for the
    awaited [analyzeSimulation(params)]; the second component lists the
    parameter sets it was called with. *)
Definition handleAnalyze (analyze : SimulationParams -> Outcome AIAnalysisResult)
  (s : AppState) : AppState * list SimulationParams :=
  let s1 := set_error (set_isAnalyzing s true) None in
  let s2 :=
    match analyze (params s) with
    | Resolved result => set_analysis s1 (Some result)
    | Rejected e =>
        set_error s1 (Some (if String.eqb (message e) "" then default_error_message
                            else message e))
    end in
  (set_isAnalyzing s2 false, [params s]).

(** ** The god view's scene graph (SimulationCanvas.tsx) *)

Definition set_meshRef (s : AppState) (g : Object3D) : AppState := {|
  params := params s; effectDeps := effectDeps s;
  isAnalyzing := isAnalyzing s; error := error s; analysis := analysis s;
  meshRef := g; gizmo := gizmo s
|}.

Definition set_gizmo (s : AppState) (g : Object3D) : AppState := {|
  params := params s; effectDeps := effectDeps s;
  isAnalyzing := isAnalyzing s; error := error s; analysis := analysis s;
  meshRef := meshRef s; gizmo := g
|}.

(** The [useFrame] callback of [SceneContent] (lines 157-166) on the
    group [meshRef], one frame of [delta] seconds. *)
Definition useFrame_update (p : SimulationParams) (delta : R) (g : Object3D) : Object3D :=
  if (negb (isPaused p) && negb (isViewLocked p))%bool then
    let '(rx, ry, rz) := rotation g in
    let '(px, py, pz) := position g in
    let ry' := ry + delta * 0.2 in
    let rx' := rx + delta * 0.1 in
    {| position := (px, sin (ry' * 4) * 0.1, pz);
       rotation := (rx', ry', sin (ry' * 3) * 0.05) |}
  else g.

(** [handleDragEnd] of the god view's [SceneContent] (lines 178-185), whose
    [onParamChange] is [setParams(prev => ({ ...prev, ...updates }))]
    (line 685). *)
Definition handleDragEnd (s : AppState) : AppState :=
  let zOffset := vz (position (meshRef s)) in
  let newDistance := Rmax 0.5 (targetDistance (params s) - zOffset) in
  let s1 := set_meshRef s {| position := (0, 0, 0); rotation := rotation (meshRef s) |} in
  with_params s1 (set_num K_targetDistance newDistance (params s1)).

(** A translate drag along z (only [showZ]) of the gizmo by [dz]. *)
Definition gizmo_drag (s : AppState) (dz : R) : AppState :=
  let '(gx, gy, gz) := position (gizmo s) in
  set_gizmo s {| position := (gx, gy, gz + dz); rotation := rotation (gizmo s) |}.

(** Toggling [isViewLocked] switches the god view between
    [<TransformControls>{ObjectContent}</TransformControls>] and the bare
    [ObjectContent] (lines 248-258): the element at that place changes type,
    so React mounts a new [TransformControls] group and a new [meshRef]
    group. The other UI events leave the scene graph as it is. *)
Definition scene_after (e : UIEvent) (s : AppState) : AppState :=
  match e with
  | ToggleViewLock => set_gizmo (set_meshRef s fresh_group) fresh_group
  | _ => s
  end.

(** Transitions of the application. *)
Inductive step : AppState -> AppState -> Prop :=
| step_ui : forall s e,
    ui_enabled (params s) e ->
    step s (scene_after e (with_params s (apply_event (params s) e)))
| step_effect : forall s,
    effectDeps s <> Some (ipd (params s), targetDistance (params s)) ->
    step s (run_vergence_effect s)
| step_analyze : forall s analyze,
    isAnalyzing s = false ->
    step s (fst (handleAnalyze analyze s))
| step_frame : forall s delta,
    0 <= delta ->
    step s (set_meshRef s (useFrame_update (params s) delta (meshRef s)))
| step_gizmo : forall s dz,
    isViewLocked (params s) = true ->   (* the gizmo is rendered only while locked *)
    step s (gizmo_drag s dz)
| step_dragEnd : forall s,
    isViewLocked (params s) = true ->   (* [onMouseUp] of [TransformControls] *)
    step s (handleDragEnd s).

Inductive reachable : AppState -> Prop :=
| reach_init : reachable init
| reach_step : forall s s', reachable s -> step s s' -> reachable s'.

(** ** Statements in the spec's words *)

(** The vergence angle as the spec states it: twice
    [atan((ipd/1000/2) / targetDistance)], converted to degrees. *)
Definition spec_vergence (ipd_mm targetDistance_m : R) : R :=
  2 * (atan (((ipd_mm / 1000) / 2) / targetDistance_m) * 180 / PI).

(** The field of view as the spec states it, sensor height 24 mm. *)
Definition spec_fov (focalLength_mm : R) : R :=
  2 * atan (24 / (2 * focalLength_mm)) * 180 / PI.

(** ** Further parts of the camera rig and the UI *)

(** [getObjectDimensions] (SimulationCanvas.tsx, lines 29-37); its switch
    has no case for ['custom'], which falls to the default. *)
Definition getObjectDimensions (t : ObjectType) : Vec3 :=
  match t with
  | Cube => (2, 2, 2)
  | Sphere => (3, 3, 3)
  | Torus => (3, 3, 1.6)
  | Dna => (2.5, 8, 0.5)
  | Custom => (2, 2, 2)
  end.

Definition vy (v : Vec3) : R := snd (fst v).

(** [labelSize] of [BoundingBoxOverlay] (lines 54-55). *)
Definition labelSize (dims : Vec3) (labelScaleMultiplier : R) : R :=
  let maxDim := Rmax (Rmax (vx dims) (vy dims)) (vz dims) in
  maxDim * 0.10 * labelScaleMultiplier.

(** Positions of the width, height and depth labels of
    [BoundingBoxOverlay] (lines 65, 78 and 91). *)
Definition overlay_label_positions (dims : Vec3) (labelScaleMultiplier : R)
  : Vec3 * Vec3 * Vec3 :=
  let ls := labelSize dims labelScaleMultiplier in
  ((0, vy dims / 2 + ls * 0.5, vz dims / 2),
   (vx dims / 2 + ls * 0.5, 0, vz dims / 2),
   (vx dims / 2, - vy dims / 2 - ls * 0.5, 0)).

(** The y rotations of the left and right eye cameras of [SimulationCanvas]
    (lines 527-528, 608 and 640). *)
Definition canvas_camera_rotations (p : SimulationParams) : R * R :=
  let halfBaseLine := (ipd p * 0.001) / 2 in
  let convergenceAngle := atan (halfBaseLine / targetDistance p) in
  (- convergenceAngle, convergenceAngle).

(** The same for the two [CameraMesh]es of [CameraVisualizer]
    (lines 414-416, 488 and 494). *)
Definition visualizer_camera_rotations (p : SimulationParams) : R * R :=
  let halfBaseLine := (ipd p * 0.001) / 2 in
  let convergenceAngle := atan (halfBaseLine / targetDistance p) in
  (- convergenceAngle, convergenceAngle).

(** Viewing direction of a three.js object rotated by [rot_y] about the y
    axis: the default direction [(0, 0, -1)] turned by that rotation. *)
Definition camera_forward (rot_y : R) : Vec3 := (- sin rot_y, 0, - cos rot_y).

Definition vadd (a b : Vec3) : Vec3 := (vx a + vx b, vy a + vy b, vz a + vz b).
Definition vscale (k : R) (a : Vec3) : Vec3 := (k * vx a, k * vy a, k * vz a).

(** [halfH] and [halfW] of [CameraFrustum] (lines 304-310). *)
Definition frustum_half_extents (fov distance : R) : R * R :=
  let aspect := 16 / 9 in
  let fovRad := (fov * PI) / 180 in
  let halfH := tan (fovRad / 2) * distance in
  let halfW := halfH * aspect in
  (halfH, halfW).

(** Eye positions in millimetres shown in the status bar under the canvas
    (part_001, line 93): [-params.ipd/2] and [params.ipd/2]. *)
Definition status_bar_eye_mm (p : SimulationParams) : R * R :=
  ((- ipd p) / 2, ipd p / 2).

(** The state rendered while [analyzeSimulation] is awaited:
    [setIsAnalyzing(true); setError(null)] of [handleAnalyze]. *)
Definition analyze_pending (s : AppState) : AppState :=
  set_error (set_isAnalyzing s true) None.

(** What the right column of [App] shows (part_001, lines 103-116, and
    [AIPanel]): the error box when [error] is a non-empty string, otherwise
    [AIPanel], which shows the loading view, the placeholder or the
    result. *)
Inductive RightPanel :=
| ErrorPanel (m : string)
| LoadingPanel
| PlaceholderPanel
| ResultPanel (r : AIAnalysisResult).

Definition ai_panel (result : option AIAnalysisResult) (isLoading : bool) : RightPanel :=
  if isLoading then LoadingPanel
  else match result with None => PlaceholderPanel | Some r => ResultPanel r end.

Definition right_panel (s : AppState) : RightPanel :=
  match error s with
  | Some m => if String.eqb m "" then ai_panel (analysis s) (isAnalyzing s) else ErrorPanel m
  | None => ai_panel (analysis s) (isAnalyzing s)
  end.

(** The dismiss button of the error box: [setError(null)]. *)
Definition dismiss_error (s : AppState) : AppState := set_error s None.

(** Bounds kept on the numeric parameters. *)
Definition params_bounded (p : SimulationParams) : Prop :=
  slider_min K_ipd <= ipd p <= slider_max K_ipd /\
  slider_min K_focalLength <= focalLength p <= slider_max K_focalLength /\
  slider_min K_objectScale <= objectScale p <= slider_max K_objectScale /\
  slider_min K_cameraSize <= cameraSize p <= slider_max K_cameraSize /\
  MIN_DISTANCE <= targetDistance p.

(** Every numeric parameter lies within its slider's [min]/[max]. *)
Definition in_slider_ranges (p : SimulationParams) : Prop :=
  forall k, slider_min k <= get_num k p <= slider_max k.

(** Lock the view, drag the gizmo 10 m towards the cameras, release it. *)
Definition drag_scenario : AppState :=
  let s1 := scene_after ToggleViewLock (with_params init (apply_event (params init) ToggleViewLock)) in
  handleDragEnd (gizmo_drag s1 (-10)).

(** * Proofs *)

Lemma PI_neq0' : PI <> 0.
Proof. pose proof PI_RGT_0; lra. Qed.

Lemma vergence_of_spec : forall i t, vergence_of i t = spec_vergence i t.
Proof. intros; unfold vergence_of, angleDeg, spec_vergence; field; exact PI_neq0'. Qed.

Lemma apply_event_vergenceAngle : forall p e,
  vergenceAngle (apply_event p e) = vergenceAngle p.
Proof.
  intros p e; destruct e; simpl; try reflexivity.
  destruct (slider_number_input _ _ _) as [[]|]; reflexivity.
Qed.

Lemma handleAnalyze_params : forall analyze s,
  params (fst (handleAnalyze analyze s)) = params s /\
  effectDeps (fst (handleAnalyze analyze s)) = effectDeps s.
Proof.
  intros analyze s; unfold handleAnalyze; destruct (analyze (params s)); split; reflexivity.
Qed.

Lemma scene_after_app : forall e s,
  params (scene_after e s) = params s /\ effectDeps (scene_after e s) = effectDeps s /\
  isAnalyzing (scene_after e s) = isAnalyzing s /\ error (scene_after e s) = error s /\
  analysis (scene_after e s) = analysis s.
Proof. intros [] s; repeat split. Qed.

Lemma gizmo_drag_app : forall s dz,
  params (gizmo_drag s dz) = params s /\ effectDeps (gizmo_drag s dz) = effectDeps s /\
  meshRef (gizmo_drag s dz) = meshRef s.
Proof.
  intros s dz; unfold gizmo_drag; destruct (position (gizmo s)) as [[gx gy] gz]; repeat split.
Qed.

(** In a reachable state, the vergence angle is the one computed from the
    dependencies the effect last ran with. *)
Lemma reachable_vergence_deps : forall s, reachable s ->
  forall i t, effectDeps s = Some (i, t) -> vergenceAngle (params s) = vergence_of i t.
Proof.
  induction 1 as [|s s' Hr IH Hst]; intros i t Hd.
  - discriminate Hd.
  - inversion Hst as [s0 e He | s0 Hne | s0 an Ha | s0 d Hd0 | s0 dz Hl | s0 Hl]; subst.
    + destruct (scene_after_app e (with_params s (apply_event (params s) e))) as [Hp [He' _]].
      rewrite Hp; rewrite He' in Hd; simpl in *; rewrite apply_event_vergenceAngle; auto.
    + simpl in *; injection Hd as <- <-; reflexivity.
    + destruct (handleAnalyze_params an s) as [Hp Hd'].
      rewrite Hp; rewrite Hd' in Hd; auto.
    + simpl in *; auto.
    + destruct (gizmo_drag_app s dz) as [Hp [Hd' _]].
      rewrite Hp; rewrite Hd' in Hd; auto.
    + simpl in *; auto.
Qed.

(** ** C1 *)

(** Claim C1 (counterexample): "for every reachable parameter state the
    stored vergence angle is [2 * atan((ipd/1000/2)/targetDistance)] in
    degrees" fails at the initial state [DEFAULT_PARAMS], whose
    [vergenceAngle] is 0 before the effect has run. *)
Lemma C1_initial_state_stale :
  reachable init /\
  vergenceAngle (params init) <> spec_vergence (ipd (params init)) (targetDistance (params init)).
Proof.
  split; [constructor|].
  simpl; unfold spec_vergence.
  assert (0 < atan (64 / 1000 / 2 / 2.5)).
  { rewrite <- atan_0; apply atan_increasing; lra. }
  pose proof PI_RGT_0.
  assert (0 < atan (64 / 1000 / 2 / 2.5) * 180 / PI).
  { unfold Rdiv at 2; apply Rmult_lt_0_compat; [lra|]; apply Rinv_0_lt_compat; lra. }
  lra.
Qed.

(** Claim C1 (amended): no UI operation writes [vergenceAngle]; a change of
    [ipd] or [targetDistance] makes the vergence effect pending; and in
    every reachable state in which the effect has run for the current
    [ipd] and [targetDistance], [vergenceAngle] equals
    [2 * atan((ipd/1000/2)/targetDistance)] in degrees. *)
Theorem vergence_recomputed_invariant :
  (forall p e, vergenceAngle (apply_event p e) = vergenceAngle p) /\
  (forall s e,
     effectDeps s = Some (ipd (params s), targetDistance (params s)) ->
     (ipd (apply_event (params s) e) <> ipd (params s) \/
      targetDistance (apply_event (params s) e) <> targetDistance (params s)) ->
     let s' := with_params s (apply_event (params s) e) in
     effectDeps s' <> Some (ipd (params s'), targetDistance (params s'))) /\
  (forall s, reachable s ->
     effectDeps s = Some (ipd (params s), targetDistance (params s)) ->
     vergenceAngle (params s) = spec_vergence (ipd (params s)) (targetDistance (params s))).
Proof.
  split; [exact apply_event_vergenceAngle|split].
  - intros s e Hd Hch s'; subst s'; simpl; rewrite Hd.
    intros Heq; injection Heq as E1 E2; destruct Hch; auto.
  - intros s Hr Hd; rewrite (reachable_vergence_deps s Hr _ _ Hd).
    apply vergence_of_spec.
Qed.

Lemma vergence_recomputed_invariant_witness :
  reachable (run_vergence_effect init) /\
  effectDeps (run_vergence_effect init) = Some (64, 2.5) /\
  vergenceAngle (params (run_vergence_effect init)) = spec_vergence 64 2.5.
Proof.
  assert (Hr : reachable (run_vergence_effect init)).
  { apply reach_step with init; [constructor|].
    apply step_effect; simpl; discriminate. }
  split; [exact Hr|split; [reflexivity|]].
  apply (proj2 (proj2 vergence_recomputed_invariant) _ Hr); reflexivity.
Defined.

(** ** Numerical bounds on [PI] and [atan 0.24] *)

Lemma INR_fact_S : forall k, INR (fact (S k)) = INR (S k) * INR (fact k).
Proof. intros; rewrite fact_simpl, mult_INR; reflexivity. Qed.

(** Evaluate a Taylor polynomial of [sin] or [cos] at a decimal point. *)
Ltac taylor_eval :=
  unfold sin_approx, cos_approx, sin_term, cos_term; cbn [sum_f_R0 Nat.mul Nat.add];
  rewrite ?INR_fact_S; cbn [fact INR pow]; lra.

Lemma PI2_upper : PI / 2 < 1.5710.
Proof.
  destruct (Rle_or_lt 1.5710 (PI / 2)) as [H|H]; [exfalso|exact H].
  assert (0 <= cos 1.5710) by (apply cos_ge_0; pose proof PI_RGT_0; lra).
  destruct (pre_cos_bound 1.5710 3 ltac:(lra) ltac:(lra)) as [_ U].
  assert (cos_approx 1.5710 (2 * (3 + 1)) < 0) by taylor_eval.
  lra.
Qed.

Lemma PI2_lower : 1.5705 < PI / 2.
Proof.
  destruct (Rle_or_lt (PI / 2) 1.5705) as [H|H]; [exfalso|exact H].
  assert (cos 1.5705 <= 0).
  { destruct (Req_dec (PI / 2) 1.5705) as [E|E].
    - rewrite <- E, cos_PI2; lra.
    - apply Rlt_le, cos_lt_0; pose proof PI2_3_2; lra. }
  destruct (pre_cos_bound 1.5705 3 ltac:(lra) ltac:(lra)) as [L _].
  assert (0 < cos_approx 1.5705 (2 * 3 + 1)) by taylor_eval.
  lra.
Qed.

Lemma tan_0_2355_lt : tan 0.2355 < 0.24.
Proof.
  destruct (pre_sin_bound 0.2355 3 ltac:(lra) ltac:(lra)) as [_ SU].
  destruct (pre_cos_bound 0.2355 3 ltac:(lra) ltac:(lra)) as [CL _].
  assert (sin_approx 0.2355 (2 * (3 + 1)) < 0.24 * cos_approx 0.2355 (2 * 3 + 1))
    by taylor_eval.
  assert (0 < cos_approx 0.2355 (2 * 3 + 1)) by taylor_eval.
  unfold tan; apply (Rmult_lt_reg_r (cos 0.2355)); [lra|].
  unfold Rdiv; rewrite Rmult_assoc, Rinv_l by lra; lra.
Qed.

Lemma tan_0_23556_gt : 0.24 < tan 0.23556.
Proof.
  destruct (pre_sin_bound 0.23556 3 ltac:(lra) ltac:(lra)) as [SL _].
  destruct (pre_cos_bound 0.23556 3 ltac:(lra) ltac:(lra)) as [_ CU].
  assert (0.24 * cos_approx 0.23556 (2 * (3 + 1)) < sin_approx 0.23556 (2 * 3 + 1))
    by taylor_eval.
  assert (0 < cos 0.23556) by (apply cos_gt_0; pose proof PI2_lower; lra).
  unfold tan; apply (Rmult_lt_reg_r (cos 0.23556)); [lra|].
  unfold Rdiv; rewrite Rmult_assoc, Rinv_l by lra; lra.
Qed.

Lemma atan_0_24_bounds : 0.2355 < atan 0.24 < 0.23556.
Proof.
  pose proof PI2_lower.
  split.
  - rewrite <- (atan_tan 0.2355) by lra. apply atan_increasing, tan_0_2355_lt.
  - rewrite <- (atan_tan 0.23556) by lra. apply atan_increasing, tan_0_23556_gt.
Qed.

(** ** C2 *)

(** Claim C2: for every strictly positive focal length both field-of-view
    computations equal [2 * atan(24 / (2 * focalLength))] in degrees; at
    50 mm this is [2 * atan(12/50)] in degrees, approximately 26.99
    degrees (between 26.98 and 27.00). *)
Theorem fov_formula :
  (forall f, 0 < f -> canvas_fov f = spec_fov f /\ visualizer_fov f = spec_fov f) /\
  canvas_fov 50 = 2 * atan (12 / 50) * 180 / PI /\
  26.98 < canvas_fov 50 < 27.00.
Proof.
  split; [intros f _; split; reflexivity|].
  assert (E : canvas_fov 50 = 2 * atan (12 / 50) * 180 / PI).
  { unfold canvas_fov; replace (24 / (2 * 50)) with (12 / 50) by lra; reflexivity. }
  split; [exact E|].
  rewrite E.
  replace (12 / 50) with 0.24 by lra.
  pose proof atan_0_24_bounds; pose proof PI2_lower; pose proof PI2_upper.
  split.
  - apply (Rmult_lt_reg_r PI); [lra|].
    unfold Rdiv; rewrite Rmult_assoc, Rinv_l by lra; lra.
  - apply (Rmult_lt_reg_r PI); [lra|].
    unfold Rdiv; rewrite Rmult_assoc, Rinv_l by lra; lra.
Qed.

Lemma fov_formula_witness :
  0 < 35 /\ canvas_fov 35 = spec_fov 35 /\ visualizer_fov 35 = spec_fov 35.
Proof.
  assert (H : 0 < 35) by lra.
  split; [exact H|exact (proj1 fov_formula 35 H)].
Defined.

(** ** C3 *)

(** Claim C3: in both the stereo views and the god view, the left and right
    eye cameras sit at lateral offsets [-(ipd/1000)/2] and [+(ipd/1000)/2],
    at the same height and depth; at [ipd = 64] the offsets are
    [-0.032] and [+0.032]. *)
Theorem eye_offsets_symmetric :
  (forall p,
     let '(l, r) := canvas_eye_positions p in
     vx l = - ((ipd p / 1000) / 2) /\ vx r = (ipd p / 1000) / 2 /\
     snd (fst l) = snd (fst r) /\ vz l = vz r) /\
  (forall p,
     let '(l, r) := visualizer_eye_positions p in
     vx l = - ((ipd p / 1000) / 2) /\ vx r = (ipd p / 1000) / 2 /\
     snd (fst l) = snd (fst r) /\ vz l = vz r) /\
  (forall p,
     vx (fst (canvas_eye_positions (set_num K_ipd 64 p))) = -0.032 /\
     vx (snd (canvas_eye_positions (set_num K_ipd 64 p))) = 0.032 /\
     vx (fst (visualizer_eye_positions (set_num K_ipd 64 p))) = -0.032 /\
     vx (snd (visualizer_eye_positions (set_num K_ipd 64 p))) = 0.032).
Proof.
  split; [|split].
  - intros p; unfold canvas_eye_positions, vx, vz; simpl.
    repeat split; try reflexivity; lra.
  - intros p; unfold visualizer_eye_positions, vx, vz; simpl.
    repeat split; try reflexivity; lra.
  - intros p; unfold canvas_eye_positions, visualizer_eye_positions, vx; simpl.
    repeat split; lra.
Qed.

(** ** C4 *)

Lemma jdiv_fin : forall a b, b <> 0 -> jdiv (Fin a) (Fin b) = Fin (a / b).
Proof. intros a b Hb; unfold jdiv; destruct (Req_EM_T b 0); [contradiction|reflexivity]. Qed.

Lemma jdiv_pos_zero : forall a, 0 < a -> jdiv (Fin a) (Fin 0) = PosInf.
Proof.
  intros a Ha; unfold jdiv, sign_inf.
  destruct (Req_EM_T 0 0); [|contradiction].
  destruct (Req_EM_T a 0); [lra|].
  destruct (Rlt_dec 0 a); [reflexivity|lra].
Qed.

Lemma halfBase_js : forall i,
  jdiv (jdiv (Fin i) (Fin 1000)) (Fin 2) = Fin (i / 1000 / 2).
Proof. intros; rewrite !jdiv_fin by lra; reflexivity. Qed.

Lemma angleDeg_js_finite : forall i t, t <> 0 ->
  angleDeg_js (Fin i) (Fin t) = Fin (angleDeg i t).
Proof.
  intros i t Ht; unfold angleDeg_js, angleDeg.
  rewrite halfBase_js, !jdiv_fin by (exact PI_neq0' || exact Ht); reflexivity.
Qed.

Lemma angleDeg_js_zero_distance : angleDeg_js (Fin 64) (Fin 0) = Fin 90.
Proof.
  pose proof PI_neq0'.
  unfold angleDeg_js; rewrite halfBase_js, jdiv_pos_zero by lra.
  rewrite jdiv_fin by assumption; simpl; f_equal; field; assumption.
Qed.

(** Claim C4 (counterexample): the half-angle computation does not fail at
    a non-positive or non-finite target distance: at distance 0 it yields
    90 degrees, at distance -1 a finite number, at an infinite distance 0. *)
Lemma C4_no_failure_at_nonpositive :
  angleDeg_js (Fin 64) (Fin 0) = Fin 90 /\
  angleDeg_js (Fin 64) (Fin (-1)) = Fin (angleDeg 64 (-1)) /\
  angleDeg_js (Fin 64) PosInf = Fin 0.
Proof.
  split; [exact angleDeg_js_zero_distance|split].
  - apply angleDeg_js_finite; lra.
  - unfold angleDeg_js; rewrite halfBase_js, jdiv_fin by exact PI_neq0'.
    simpl; rewrite atan_0; f_equal; ring.
Qed.

(** Claim C4 (amended): the computation never raises. For every strictly
    positive finite target distance it returns the finite value
    [atan((ipd/1000/2)/targetDistance)] in degrees; at other distances it
    returns a value too (90 degrees at distance 0 for ipd 64, the same
    formula at negative distances, NaN on a NaN distance). *)
Theorem half_angle_total :
  (forall i t, 0 < t -> angleDeg_js (Fin i) (Fin t) = Fin (angleDeg i t)) /\
  (forall i t, t < 0 -> angleDeg_js (Fin i) (Fin t) = Fin (angleDeg i t)) /\
  angleDeg_js (Fin 64) (Fin 0) = Fin 90 /\
  (forall i, angleDeg_js (Fin i) NaN = NaN).
Proof.
  split; [intros i t Ht; apply angleDeg_js_finite; lra|].
  split; [intros i t Ht; apply angleDeg_js_finite; lra|].
  split; [exact angleDeg_js_zero_distance|].
  intros i; unfold angleDeg_js; rewrite halfBase_js; reflexivity.
Qed.

Lemma half_angle_total_witness :
  0 < 2.5 /\ angleDeg_js (Fin 64) (Fin 2.5) = Fin (angleDeg 64 2.5).
Proof.
  assert (H : 0 < 2.5) by lra.
  split; [exact H|exact (proj1 half_angle_total 64 2.5 H)].
Defined.

(** ** C6 *)

Lemma atan_le : forall x y, x <= y -> atan x <= atan y.
Proof.
  intros x y [H|H]; [apply Rlt_le, atan_increasing; exact H|subst; lra].
Qed.

Lemma deg_factor_pos : 0 < 180 / PI.
Proof.
  pose proof PI_RGT_0; unfold Rdiv; apply Rmult_lt_0_compat; [lra|].
  apply Rinv_0_lt_compat; lra.
Qed.

(** Claim C6: for a strictly positive target distance the convergence
    half-angle is strictly increasing in the interpupillary distance; for a
    non-negative interpupillary distance it is decreasing in the target
    distance, strictly when the interpupillary distance is positive. *)
Theorem half_angle_monotone :
  (forall t i1 i2, 0 < t -> i1 < i2 -> angleDeg i1 t < angleDeg i2 t) /\
  (forall i t1 t2, 0 <= i -> 0 < t1 -> t1 <= t2 -> angleDeg i t2 <= angleDeg i t1) /\
  (forall i t1 t2, 0 < i -> 0 < t1 -> t1 < t2 -> angleDeg i t2 < angleDeg i t1).
Proof.
  pose proof deg_factor_pos as Hd.
  unfold angleDeg; split; [|split].
  - intros t i1 i2 Ht Hi.
    apply Rmult_lt_compat_r; [exact Hd|]; apply atan_increasing.
    unfold Rdiv at 3 6; apply Rmult_lt_compat_r; [apply Rinv_0_lt_compat; lra|lra].
  - intros i t1 t2 Hi Ht1 Ht12.
    apply Rmult_le_compat_r; [lra|]; apply atan_le.
    unfold Rdiv at 3 6; apply Rmult_le_compat_l; [lra|].
    apply Rinv_le_contravar; lra.
  - intros i t1 t2 Hi Ht1 Ht12.
    apply Rmult_lt_compat_r; [exact Hd|]; apply atan_increasing.
    unfold Rdiv at 3 6; apply Rmult_lt_compat_l; [lra|].
    apply Rinv_lt_contravar; [apply Rmult_lt_0_compat|]; lra.
Qed.

Lemma half_angle_monotone_witness :
  angleDeg 64 2.5 < angleDeg 70 2.5 /\
  angleDeg 64 5 <= angleDeg 64 2.5 /\
  angleDeg 64 5 < angleDeg 64 2.5.
Proof.
  split; [apply (proj1 half_angle_monotone); lra|].
  split; [apply (proj1 (proj2 half_angle_monotone)); lra|].
  apply (proj2 (proj2 half_angle_monotone)); lra.
Defined.

(** ** C7 *)

(** Claim C7: a missing credential, a rejected service call, an empty
    response or a response that does not parse make [analyzeSimulation]
    throw; when it throws, [handleAnalyze] leaves the parameters and the
    previous analysis unchanged, ends with [isAnalyzing = false] and a
    non-empty error message, and calls the service exactly once. *)
Theorem analyze_failure_keeps_params :
  (forall apiKey gc jp p,
     apiKey = ""%string \/ (exists e, gc = Rejected e) \/ gc = Resolved None \/
     (exists t e, gc = Resolved (Some t) /\ t <> ""%string /\ jp t = Rejected e) ->
     exists e, analyzeSimulation apiKey gc jp p = Rejected e) /\
  (forall analyze s e,
     analyze (params s) = Rejected e ->
     let '(s', calls) := handleAnalyze analyze s in
     params s' = params s /\ isAnalyzing s' = false /\
     (exists m, error s' = Some m /\ m <> ""%string) /\
     analysis s' = analysis s /\ calls = [params s]).
Proof.
  split.
  - intros apiKey gc jp p H; unfold analyzeSimulation.
    destruct (String.eqb_spec apiKey "") as [Ek|Ek]; [eexists; reflexivity|].
    destruct H as [H|[[e He]|[He|[t [e [He [Ht Hp]]]]]]]; [contradiction| | |]; subst gc.
    + eexists; reflexivity.
    + eexists; reflexivity.
    + destruct (String.eqb_spec t "") as [Et|Et]; [contradiction|].
      exists e; exact Hp.
  - intros analyze s e He; unfold handleAnalyze; rewrite He; simpl.
    split; [reflexivity|split; [reflexivity|split; [|split; reflexivity]]].
    destruct (String.eqb_spec (message e) "") as [Em|Em].
    + eexists; split; [reflexivity|discriminate].
    + eexists; split; [reflexivity|exact Em].
Qed.

Lemma analyze_failure_keeps_params_witness :
  analyzeSimulation "" (Resolved None) (fun _ => Rejected {| message := "" |}) (params init)
    = Rejected {| message := missing_key_message |} /\
  params (fst (handleAnalyze (analyzeSimulation "" (Resolved None)
                               (fun _ => Rejected {| message := "" |})) init)) = params init /\
  isAnalyzing (fst (handleAnalyze (analyzeSimulation "" (Resolved None)
                               (fun _ => Rejected {| message := "" |})) init)) = false.
Proof.
  assert (H : analyzeSimulation "" (Resolved None) (fun _ => Rejected {| message := "" |})
                (params init) = Rejected {| message := missing_key_message |})
    by reflexivity.
  pose proof (proj2 analyze_failure_keeps_params _ init _ H) as K.
  destruct (handleAnalyze _ init) as [s' calls] eqn:E; simpl.
  destruct K as [K1 [K2 _]].
  split; [exact H|split; [exact K1|exact K2]].
Defined.

(** ** C8 *)

(** Claim C8: at interpupillary distance 0 the vergence angle is 0 for
    every strictly positive target distance. *)
Theorem vergence_cyclops :
  forall t, 0 < t -> vergence_of 0 t = 0 /\
  forall p, ipd p = 0 -> targetDistance p = t -> vergenceAngle (vergence_effect p) = 0.
Proof.
  assert (Z : forall t, vergence_of 0 t = 0).
  { intros t; unfold vergence_of, angleDeg.
    replace (0 / 1000 / 2 / t) with 0 by (unfold Rdiv; ring).
    rewrite atan_0; ring. }
  intros t _; split; [apply Z|].
  intros p Hi Ht; simpl; rewrite Hi; apply Z.
Qed.

Lemma vergence_cyclops_witness :
  vergence_of 0 2.5 = 0 /\ vergenceAngle (vergence_effect (set_num K_ipd 0 DEFAULT_PARAMS)) = 0.
Proof.
  assert (H : 0 < 2.5) by lra.
  split; [exact (proj1 (vergence_cyclops 2.5 H))|].
  apply (proj2 (vergence_cyclops 2.5 H)); reflexivity.
Defined.

(** ** C9 *)

(** Claim C9: running the vergence update twice on a state with unchanged
    [ipd] and [targetDistance] gives the same state, and the same
    [vergenceAngle], as running it once; after it has run, the effect is
    no longer pending. *)
Theorem vergence_update_idempotent :
  (forall p, vergence_effect (vergence_effect p) = vergence_effect p) /\
  (forall p, vergenceAngle (vergence_effect (vergence_effect p)) =
             vergenceAngle (vergence_effect p)) /\
  (forall s, let s' := run_vergence_effect s in
             effectDeps s' = Some (ipd (params s'), targetDistance (params s'))).
Proof.
  split; [intros p; reflexivity|split; intros; reflexivity].
Qed.

(** ** C10 *)

Lemma slider_bounds_ordered : forall k, slider_min k <= slider_max k.
Proof. intros []; unfold slider_min, slider_max, MIN_IPD, MAX_IPD, MIN_DISTANCE, MAX_DISTANCE; lra. Qed.

Lemma clamp_finite : forall lo hi val, lo <= hi -> isNaN val = false ->
  exists v, jmax (Fin lo) (jmin (Fin hi) val) = Fin v /\ lo <= v <= hi.
Proof.
  intros lo hi val Hlh Hn; destruct val as [r| | |]; simpl.
  - exists (Rmax lo (Rmin hi r)); split; [reflexivity|split].
    + apply Rmax_l.
    + apply Rmax_lub; [exact Hlh|apply Rmin_l].
  - exists (Rmax lo hi); split; [reflexivity|].
    rewrite Rmax_right by exact Hlh; lra.
  - exists lo; split; [reflexivity|lra].
  - discriminate Hn.
Qed.

(** Claim C10: when the text of a slider's number box parses to NaN,
    [onChange] is not called and the parameters are unchanged; otherwise
    [onChange] is called with the value clamped into the slider's range and
    the parameter takes that value. *)
Theorem number_box_nan_no_update :
  (forall k val p, isNaN val = true ->
     slider_number_input (slider_min k) (slider_max k) val = None /\
     apply_event p (SliderNumber k val) = p) /\
  (forall k val p, isNaN val = false ->
     exists v, slider_number_input (slider_min k) (slider_max k) val = Some (Fin v) /\
       apply_event p (SliderNumber k val) = set_num k v p /\
       get_num k (apply_event p (SliderNumber k val)) = v /\
       slider_min k <= v <= slider_max k).
Proof.
  split.
  - intros k val p Hn; unfold apply_event, slider_number_input; rewrite Hn; split; reflexivity.
  - intros k val p Hn.
    destruct (clamp_finite (slider_min k) (slider_max k) val (slider_bounds_ordered k) Hn)
      as [v [Hv Hb]].
    exists v; unfold apply_event, slider_number_input; rewrite Hn, Hv.
    split; [reflexivity|split; [reflexivity|split; [destruct k; reflexivity|exact Hb]]].
Qed.

Lemma number_box_nan_no_update_witness :
  apply_event DEFAULT_PARAMS (SliderNumber K_ipd NaN) = DEFAULT_PARAMS /\
  exists v, slider_number_input MIN_IPD MAX_IPD PosInf = Some (Fin v) /\
            apply_event DEFAULT_PARAMS (SliderNumber K_ipd PosInf) = set_num K_ipd v DEFAULT_PARAMS /\
            get_num K_ipd (apply_event DEFAULT_PARAMS (SliderNumber K_ipd PosInf)) = v /\
            MIN_IPD <= v <= MAX_IPD.
Proof.
  split.
  - exact (proj2 (proj1 number_box_nan_no_update K_ipd NaN DEFAULT_PARAMS eq_refl)).
  - exact (proj2 number_box_nan_no_update K_ipd PosInf DEFAULT_PARAMS eq_refl).
Defined.

(** * Further properties of the code *)

(** ** The toggle buttons *)

(** Pressing a toggle button of [Controls], or the view-lock button of the
    canvas, twice restores the parameters exactly. *)
Theorem toggle_twice_identity :
  (forall k p, apply_event (apply_event p (ToggleFlag k)) (ToggleFlag k) = p) /\
  (forall p, apply_event (apply_event p ToggleViewLock) ToggleViewLock = p).
Proof.
  split.
  - intros k [];  destruct k; unfold apply_event, toggle_flag, set_flags; simpl;
      repeat match goal with |- context [negb (negb ?b)] => rewrite Bool.negb_involutive end;
      reflexivity.
  - intros []; simpl; rewrite Bool.negb_involutive; reflexivity.
Qed.

(** ** Invariants of the reachable states *)

Lemma get_num_vergence_effect : forall k p, get_num k (vergence_effect p) = get_num k p.
Proof. intros [] p; reflexivity. Qed.

Lemma params_bounded_set_num : forall k v p,
  params_bounded p ->
  (k = K_targetDistance -> MIN_DISTANCE <= v) ->
  (k <> K_targetDistance -> slider_min k <= v <= slider_max k) ->
  params_bounded (set_num k v p).
Proof.
  intros k v p (H1 & H2 & H3 & H4 & H5) Ht Ho.
  destruct k; unfold params_bounded; simpl;
    [pose proof (Ho ltac:(discriminate)) | pose proof (Ht eq_refl)
    | pose proof (Ho ltac:(discriminate)) | pose proof (Ho ltac:(discriminate))
    | pose proof (Ho ltac:(discriminate))];
    simpl in *; repeat split; lra.
Qed.

Lemma params_bounded_apply_event : forall p e,
  params_bounded p -> ui_enabled p e -> params_bounded (apply_event p e).
Proof.
  intros p e Hb He; destruct e as [k val|k val|k|o|url|]; simpl in *.
  - destruct (isNaN val) eqn:Hn.
    + unfold slider_number_input; rewrite Hn; exact Hb.
    + destruct (clamp_finite (slider_min k) (slider_max k) val (slider_bounds_ordered k) Hn)
        as [v [Hv [Hl Hu]]].
      unfold slider_number_input; rewrite Hn, Hv.
      apply params_bounded_set_num; [exact Hb| |intros _; lra].
      intros ->; exact Hl.
  - destruct He as [Hl Hu].
    apply params_bounded_set_num; [exact Hb| |intros _; lra].
    intros ->; exact Hl.
  - destruct k; exact Hb.
  - exact Hb.
  - exact Hb.
  - exact Hb.
Qed.

(** Every reachable state keeps [ipd], [focalLength], [objectScale] and
    [cameraSize] within their sliders' ranges and [targetDistance] at or
    above [MIN_DISTANCE] = 0.5 m, so the vergence computation never
    divides by zero. *)
Theorem reachable_params_bounded : forall s, reachable s -> params_bounded (params s).
Proof.
  induction 1 as [|s s' Hr IH Hst].
  - unfold params_bounded, slider_min, slider_max, MIN_IPD, MAX_IPD, MIN_DISTANCE; simpl.
    repeat split; lra.
  - inversion Hst as [s0 e He | s0 Hne | s0 an Ha | s0 d Hd0 | s0 dz Hl | s0 Hl]; subst.
    + rewrite (proj1 (scene_after_app _ _)).
      apply params_bounded_apply_event; assumption.
    + exact IH.
    + rewrite (proj1 (handleAnalyze_params an s)); exact IH.
    + exact IH.
    + rewrite (proj1 (gizmo_drag_app s dz)); exact IH.
    + unfold handleDragEnd; simpl.
      apply params_bounded_set_num; [exact IH| |intros H; contradiction H; reflexivity].
      intros _; unfold MIN_DISTANCE; apply Rmax_l.
Qed.

Lemma reachable_params_bounded_witness :
  reachable (run_vergence_effect init) /\ params_bounded (params (run_vergence_effect init)).
Proof.
  assert (Hr : reachable (run_vergence_effect init)).
  { apply reach_step with init; [constructor|]. apply step_effect; simpl; discriminate. }
  split; [exact Hr|exact (reachable_params_bounded _ Hr)].
Defined.

(** In every reachable state the object type ['custom'] comes with an
    uploaded model URL: [Custom] is only set by [handleFileUpload], which
    sets the URL at the same time, and nothing clears the URL. So the
    "please upload a model" placeholder of [SceneContent] is never shown. *)
Theorem custom_object_has_url : forall s, reachable s ->
  objectType (params s) = Custom -> customModelUrl (params s) <> None.
Proof.
  induction 1 as [|s s' Hr IH Hst].
  - discriminate.
  - inversion Hst as [s0 e He | s0 Hne | s0 an Ha | s0 d Hd0 | s0 dz Hl | s0 Hl]; subst.
    + rewrite (proj1 (scene_after_app _ _)).
      destruct e as [k val|k val|k|o|url|]; simpl in *; try exact IH.
      * destruct (slider_number_input _ _ _) as [[]|]; exact IH.
      * intros Ho; contradiction.
      * discriminate.
    + exact IH.
    + rewrite (proj1 (handleAnalyze_params an s)); exact IH.
    + exact IH.
    + rewrite (proj1 (gizmo_drag_app s dz)); exact IH.
    + exact IH.
Qed.

Lemma custom_object_has_url_witness :
  let s := with_params init (apply_event (params init) (UploadModel "blob:model")) in
  reachable s /\ objectType (params s) = Custom /\ customModelUrl (params s) <> None.
Proof.
  intros s.
  assert (Hr : reachable s).
  { apply reach_step with init; [constructor|]. exact (step_ui init (UploadModel "blob:model") I). }
  assert (Ho : objectType (params s) = Custom) by reflexivity.
  split; [exact Hr|split; [exact Ho|exact (custom_object_has_url s Hr Ho)]].
Defined.

(** ** The AI analysis flow *)

(** What the right column shows: the loading view while the request is
    awaited; after a failure the error box with the message; after
    dismissing it, the analysis from before the request (or the
    placeholder if there was none); after a success, the new result. *)
Theorem right_panel_analysis_flow :
  (forall s, right_panel (analyze_pending s) = LoadingPanel) /\
  (forall analyze s e, analyze (params s) = Rejected e ->
     exists m, right_panel (fst (handleAnalyze analyze s)) = ErrorPanel m /\
       right_panel (dismiss_error (fst (handleAnalyze analyze s))) =
         ai_panel (analysis s) false) /\
  (forall analyze s r, analyze (params s) = Resolved r ->
     right_panel (fst (handleAnalyze analyze s)) = ResultPanel r).
Proof.
  split; [intros s; reflexivity|split].
  - intros analyze s e H; unfold handleAnalyze; rewrite H; simpl.
    destruct (String.eqb_spec (message e) "") as [Em|Em].
    + exists default_error_message; split; reflexivity.
    + exists (message e); unfold right_panel; simpl.
      destruct (String.eqb_spec (message e) "") as [E|_]; [contradiction|].
      split; reflexivity.
  - intros analyze s r H; unfold handleAnalyze; rewrite H; reflexivity.
Qed.

Lemma right_panel_analysis_flow_witness :
  right_panel (fst (handleAnalyze (fun _ => Rejected {| message := "" |}) init))
    = ErrorPanel default_error_message /\
  right_panel (dismiss_error (fst (handleAnalyze (fun _ => Rejected {| message := "" |}) init)))
    = PlaceholderPanel.
Proof.
  destruct (proj1 (proj2 right_panel_analysis_flow)
              (fun _ => Rejected {| message := "" |}) init _ eq_refl) as [m [E D]].
  split; [|exact D].
  rewrite E; f_equal.
  assert (E' : right_panel (fst (handleAnalyze (fun _ => Rejected {| message := "" |}) init))
               = ErrorPanel default_error_message) by reflexivity.
  rewrite E in E'; injection E' as ->; reflexivity.
Defined.

(** ** Camera geometry *)

Lemma atan_ratio_sin_cos : forall h t, 0 < t ->
  0 < cos (atan (h / t)) /\ sin (atan (h / t)) = h / t * cos (atan (h / t)).
Proof.
  intros h t Ht.
  assert (Hc : 0 < cos (atan (h / t))).
  { destruct (atan_bound (h / t)) as [A B]; apply cos_gt_0; lra. }
  split; [exact Hc|].
  pose proof (tan_atan (h / t)) as T.
  replace (sin (atan (h / t))) with (tan (atan (h / t)) * cos (atan (h / t)))
    by (unfold tan; field; lra).
  rewrite T; reflexivity.
Qed.

Lemma eye_aims_at_origin : forall h t, 0 < t ->
  exists sl sr, 0 < sl /\ 0 < sr /\
    vadd (- h, 0, t) (vscale sl (camera_forward (- atan (h / t)))) = (0, 0, 0) /\
    vadd (h, 0, t) (vscale sr (camera_forward (atan (h / t)))) = (0, 0, 0).
Proof.
  intros h t Ht.
  destruct (atan_ratio_sin_cos h t Ht) as [Hc Hs].
  set (c := cos (atan (h / t))) in *.
  assert (Hsc : 0 < t / c) by (unfold Rdiv; apply Rmult_lt_0_compat; [lra|apply Rinv_0_lt_compat; lra]).
  exists (t / c), (t / c); split; [exact Hsc|split; [exact Hsc|]].
  unfold vadd, vscale, camera_forward, vx, vy, vz; simpl.
  rewrite sin_neg, cos_neg; fold c; rewrite Hs.
  split; f_equal; [f_equal| |f_equal|]; field; lra.
Qed.

(** Both eye cameras, in the stereo views and in the god view, are turned
    so that their optical axes pass through the origin, where the target
    object is placed: moving forward from each camera's position along its
    viewing direction reaches the origin. *)
Theorem cameras_aim_at_target :
  forall p, 0 < targetDistance p ->
  (exists sl sr, 0 < sl /\ 0 < sr /\
     vadd (fst (canvas_eye_positions p))
          (vscale sl (camera_forward (fst (canvas_camera_rotations p)))) = (0, 0, 0) /\
     vadd (snd (canvas_eye_positions p))
          (vscale sr (camera_forward (snd (canvas_camera_rotations p)))) = (0, 0, 0)) /\
  (exists sl sr, 0 < sl /\ 0 < sr /\
     vadd (fst (visualizer_eye_positions p))
          (vscale sl (camera_forward (fst (visualizer_camera_rotations p)))) = (0, 0, 0) /\
     vadd (snd (visualizer_eye_positions p))
          (vscale sr (camera_forward (snd (visualizer_camera_rotations p)))) = (0, 0, 0)).
Proof.
  intros p Ht; split; apply eye_aims_at_origin; exact Ht.
Qed.

Lemma cameras_aim_at_target_witness :
  0 < targetDistance DEFAULT_PARAMS /\
  exists sl sr, 0 < sl /\ 0 < sr /\
     vadd (fst (canvas_eye_positions DEFAULT_PARAMS))
          (vscale sl (camera_forward (fst (canvas_camera_rotations DEFAULT_PARAMS)))) = (0, 0, 0) /\
     vadd (snd (canvas_eye_positions DEFAULT_PARAMS))
          (vscale sr (camera_forward (snd (canvas_camera_rotations DEFAULT_PARAMS)))) = (0, 0, 0).
Proof.
  assert (H : 0 < targetDistance DEFAULT_PARAMS) by (simpl; lra).
  split; [exact H|exact (proj1 (cameras_aim_at_target DEFAULT_PARAMS H))].
Defined.

(** The toe-in the canvas gives each eye camera is half the vergence angle
    the [App] effect stores, in radians: the stored angle is
    [2 * convergenceAngle * 180 / PI]. *)
Theorem canvas_rotation_matches_vergence :
  forall p,
    fst (canvas_camera_rotations p) = - snd (canvas_camera_rotations p) /\
    vergenceAngle (vergence_effect p) = 2 * snd (canvas_camera_rotations p) * (180 / PI).
Proof.
  intros p; split; [reflexivity|].
  unfold vergence_effect, set_vergenceAngle, vergence_of, angleDeg, canvas_camera_rotations; simpl.
  replace (ipd p * 0.001 / 2) with (ipd p / 1000 / 2) by lra; ring.
Qed.

(** With the field of view the canvas computes from a positive focal
    length [f], the frustum drawn at distance [d] has half-height
    [12 * d / f] (sensor half-height over focal length, times distance)
    and half-width 16/9 of that. *)
Theorem frustum_extents_from_focal_length :
  forall f d, 0 < f ->
    frustum_half_extents (canvas_fov f) d = (12 / f * d, 12 / f * d * (16 / 9)).
Proof.
  intros f d Hf.
  unfold frustum_half_extents.
  replace (canvas_fov f * PI / 180 / 2) with (atan (24 / (2 * f)))
    by (unfold canvas_fov; field; exact PI_neq0').
  rewrite tan_atan.
  replace (24 / (2 * f)) with (12 / f) by (field; lra).
  reflexivity.
Qed.

Lemma frustum_extents_from_focal_length_witness :
  0 < 50 /\ frustum_half_extents (canvas_fov 50) 2.5 = (12 / 50 * 2.5, 12 / 50 * 2.5 * (16 / 9)).
Proof.
  assert (H : 0 < 50) by lra.
  split; [exact H|exact (frustum_extents_from_focal_length 50 2.5 H)].
Defined.

Lemma canvas_fov_scaled : forall f, canvas_fov f = atan (24 / (2 * f)) * (360 / PI).
Proof. intros f; unfold canvas_fov; field; exact PI_neq0'. Qed.

(** For positive focal lengths the field of view lies strictly between 0
    and 180 degrees and strictly decreases as the focal length grows. *)
Theorem fov_decreasing_bounded :
  (forall f, 0 < f -> 0 < canvas_fov f < 180) /\
  (forall f1 f2, 0 < f1 -> f1 < f2 -> canvas_fov f2 < canvas_fov f1).
Proof.
  assert (Hk : 0 < 360 / PI).
  { pose proof PI_RGT_0; unfold Rdiv; apply Rmult_lt_0_compat; [lra|apply Rinv_0_lt_compat; lra]. }
  split.
  - intros f Hf; rewrite canvas_fov_scaled.
    assert (Hx : 0 < 24 / (2 * f)).
    { unfold Rdiv; apply Rmult_lt_0_compat; [lra|apply Rinv_0_lt_compat; lra]. }
    split.
    + apply Rmult_lt_0_compat; [|exact Hk].
      rewrite <- atan_0; apply atan_increasing; exact Hx.
    + replace 180 with (PI / 2 * (360 / PI)) by (field; exact PI_neq0').
      apply Rmult_lt_compat_r; [exact Hk|].
      destruct (atan_bound (24 / (2 * f))); lra.
  - intros f1 f2 H1 H12; rewrite !canvas_fov_scaled.
    apply Rmult_lt_compat_r; [exact Hk|]; apply atan_increasing.
    unfold Rdiv; apply Rmult_lt_compat_l; [lra|].
    apply Rinv_lt_contravar; [apply Rmult_lt_0_compat|]; lra.
Qed.

Lemma fov_decreasing_bounded_witness :
  (0 < canvas_fov 50 < 180) /\ canvas_fov 100 < canvas_fov 50.
Proof.
  split; [apply (proj1 fov_decreasing_bounded); lra|].
  apply (proj2 fov_decreasing_bounded); lra.
Defined.

(** The eye positions printed in the status bar, in millimetres, are the
    x offsets of the eye cameras scaled to millimetres. *)
Theorem status_bar_matches_cameras : forall p,
  fst (status_bar_eye_mm p) = 1000 * vx (fst (canvas_eye_positions p)) /\
  snd (status_bar_eye_mm p) = 1000 * vx (snd (canvas_eye_positions p)).
Proof. intros p; unfold status_bar_eye_mm, canvas_eye_positions, vx; simpl; split; lra. Qed.

(** ** Bounding box overlays *)

(** Every built-in object has positive box dimensions, and for a box with
    positive dimensions and a positive label scale, [BoundingBoxOverlay]
    places its width label above the box, its height label right of it and
    its depth label below it, never inside. *)
Theorem overlay_labels_outside_box :
  (forall t, 0 < vx (getObjectDimensions t) /\ 0 < vy (getObjectDimensions t) /\
             0 < vz (getObjectDimensions t)) /\
  (forall dims m, 0 < vx dims -> 0 < vy dims -> 0 < vz dims -> 0 < m ->
     let '(w, h, d) := overlay_label_positions dims m in
     0 < labelSize dims m /\
     vy dims / 2 < vy w /\ vx dims / 2 < vx h /\ vy d < - vy dims / 2).
Proof.
  split.
  - intros []; unfold vx, vy, vz; simpl; repeat split; lra.
  - intros [[a b] c] m Hx Hy Hz Hm; unfold overlay_label_positions.
    assert (Hl : 0 < labelSize (a, b, c) m).
    { unfold labelSize.
      assert (0 < Rmax (Rmax (vx (a, b, c)) (vy (a, b, c))) (vz (a, b, c))).
      { apply Rlt_le_trans with (vz (a, b, c)); [exact Hz|apply Rmax_r]. }
      apply Rmult_lt_0_compat; [apply Rmult_lt_0_compat|]; lra. }
    revert Hl; generalize (labelSize (a, b, c) m); intros l Hl.
    unfold vx, vy, vz in *; simpl in *; repeat split; lra.
Qed.

Lemma overlay_labels_outside_box_witness :
  0 < labelSize (getObjectDimensions Dna) 1.
Proof.
  pose proof (proj2 overlay_labels_outside_box (getObjectDimensions Dna) 1) as K.
  unfold vx, vy, vz in K; simpl in K.
  destruct (K ltac:(lra) ltac:(lra) ltac:(lra) ltac:(lra)) as [L _]; exact L.
Defined.

(** ** C5 *)

Lemma in_slider_ranges_set_num : forall k v p,
  in_slider_ranges p -> slider_min k <= v <= slider_max k ->
  in_slider_ranges (set_num k v p).
Proof.
  intros k v p Hp Hv k'; destruct k, k';
    first [ exact Hv | exact (Hp K_ipd) | exact (Hp K_targetDistance)
          | exact (Hp K_focalLength) | exact (Hp K_objectScale) | exact (Hp K_cameraSize) ].
Qed.

Lemma in_slider_ranges_apply_event : forall p e,
  in_slider_ranges p -> ui_enabled p e -> in_slider_ranges (apply_event p e).
Proof.
  intros p e Hp He; destruct e as [k val|k val|k|o|url|]; simpl in He.
  - simpl; destruct (isNaN val) eqn:Hn.
    + unfold slider_number_input; rewrite Hn; exact Hp.
    + destruct (clamp_finite (slider_min k) (slider_max k) val (slider_bounds_ordered k) Hn)
        as [v [Hv Hb]].
      unfold slider_number_input; rewrite Hn, Hv.
      apply in_slider_ranges_set_num; assumption.
  - apply in_slider_ranges_set_num; assumption.
  - intros k'; destruct k';
      first [ exact (Hp K_ipd) | exact (Hp K_targetDistance) | exact (Hp K_focalLength)
            | exact (Hp K_objectScale) | exact (Hp K_cameraSize) ].
  - intros k'; destruct k';
      first [ exact (Hp K_ipd) | exact (Hp K_targetDistance) | exact (Hp K_focalLength)
            | exact (Hp K_objectScale) | exact (Hp K_cameraSize) ].
  - intros k'; destruct k';
      first [ exact (Hp K_ipd) | exact (Hp K_targetDistance) | exact (Hp K_focalLength)
            | exact (Hp K_objectScale) | exact (Hp K_cameraSize) ].
  - intros k'; destruct k';
      first [ exact (Hp K_ipd) | exact (Hp K_targetDistance) | exact (Hp K_focalLength)
            | exact (Hp K_objectScale) | exact (Hp K_cameraSize) ].
Qed.

Lemma handleAnalyze_meshRef : forall analyze s,
  meshRef (fst (handleAnalyze analyze s)) = meshRef s.
Proof. intros analyze s; unfold handleAnalyze; destruct (analyze (params s)); reflexivity. Qed.

(** [useFrame] writes [position.y] and the rotation, never [position.z]. *)
Lemma useFrame_keeps_z : forall p delta g,
  vz (position (useFrame_update p delta g)) = vz (position g).
Proof.
  intros p delta [[[px py] pz] [[rx ry] rz]]; unfold useFrame_update.
  destruct (negb (isPaused p) && negb (isViewLocked p))%bool; reflexivity.
Qed.

(** The [meshRef] group is never moved along z: the gizmo moves the group
    of [TransformControls], [useFrame] writes [y], [handleDragEnd] resets
    the position, and a remount starts at the origin. *)
Lemma reachable_ranges_meshRef_z : forall s, reachable s ->
  in_slider_ranges (params s) /\ vz (position (meshRef s)) = 0.
Proof.
  induction 1 as [|s s' Hr [IHp IHz] Hst].
  - split; [|reflexivity].
    intros []; unfold slider_min, slider_max, MIN_IPD, MAX_IPD, MIN_DISTANCE, MAX_DISTANCE;
      simpl; lra.
  - inversion Hst as [s0 e He | s0 Hne | s0 an Ha | s0 d Hd0 | s0 dz Hl | s0 Hl]; subst.
    + rewrite (proj1 (scene_after_app _ _)); split.
      * apply in_slider_ranges_apply_event; assumption.
      * destruct e; first [exact IHz | reflexivity].
    + change (params (run_vergence_effect s)) with (vergence_effect (params s)).
      split; [intros k; rewrite get_num_vergence_effect; apply IHp|exact IHz].
    + rewrite (proj1 (handleAnalyze_params an s)), handleAnalyze_meshRef; split; assumption.
    + split; [exact IHp|]; simpl; rewrite useFrame_keeps_z; exact IHz.
    + destruct (gizmo_drag_app s dz) as [Hp [_ Hm]]; rewrite Hp, Hm; split; assumption.
    + split; [|reflexivity].
      unfold handleDragEnd; simpl; rewrite IHz.
      apply in_slider_ranges_set_num; [exact IHp|].
      destruct (IHp K_targetDistance) as [Hlo Hhi]; simpl in Hlo, Hhi.
      unfold slider_min, slider_max, MIN_DISTANCE, MAX_DISTANCE in *.
      split; [apply Rmax_l|apply Rmax_lub; lra].
Qed.

(** Claim C5: the number box of every slider clamps a parsed value into
    the slider's [[min, max]] instead of signalling an error, and in every
    reachable state [targetDistance] lies in [[MIN_DISTANCE, MAX_DISTANCE]]
    = [[0.5, 10]], [ipd] in [[MIN_IPD, MAX_IPD]] = [[0, 20000]],
    [focalLength] in [[15, 200]] (and every other slider value within its
    range). Ending a drag in the god view leaves [targetDistance] as it
    is, since the dragged group is not [meshRef]. *)
Theorem slider_updates_keep_ranges :
  (forall k val, isNaN val = false ->
     exists v, slider_number_input (slider_min k) (slider_max k) val = Some (Fin v) /\
       slider_min k <= v <= slider_max k) /\
  (forall s, reachable s ->
     MIN_DISTANCE <= targetDistance (params s) <= MAX_DISTANCE /\
     MIN_IPD <= ipd (params s) <= MAX_IPD /\
     15 <= focalLength (params s) <= 200 /\
     in_slider_ranges (params s)) /\
  (forall s, reachable s ->
     targetDistance (params (handleDragEnd s)) = targetDistance (params s)).
Proof.
  split; [|split].
  - intros k val Hn; unfold slider_number_input; rewrite Hn.
    destruct (clamp_finite (slider_min k) (slider_max k) val (slider_bounds_ordered k) Hn)
      as [v [Hv Hb]].
    exists v; rewrite Hv; split; [reflexivity|exact Hb].
  - intros s Hr; destruct (reachable_ranges_meshRef_z s Hr) as [Hp _].
    split; [exact (Hp K_targetDistance)|split; [exact (Hp K_ipd)|split; [exact (Hp K_focalLength)|exact Hp]]].
  - intros s Hr; destruct (reachable_ranges_meshRef_z s Hr) as [Hp Hz].
    unfold handleDragEnd; simpl; rewrite Hz.
    destruct (Hp K_targetDistance) as [Hlo _]; simpl in Hlo; unfold slider_min, MIN_DISTANCE in Hlo.
    unfold Rmax; destruct (Rle_dec 0.5 (targetDistance (params s) - 0)); lra.
Qed.

Lemma slider_updates_keep_ranges_witness :
  (exists v, slider_number_input (slider_min K_targetDistance) (slider_max K_targetDistance) (Fin 15)
       = Some (Fin v) /\ slider_min K_targetDistance <= v <= slider_max K_targetDistance) /\
  reachable drag_scenario /\
  MIN_DISTANCE <= targetDistance (params drag_scenario) <= MAX_DISTANCE.
Proof.
  split; [exact (proj1 slider_updates_keep_ranges K_targetDistance (Fin 15) eq_refl)|].
  set (s1 := scene_after ToggleViewLock (with_params init (apply_event (params init) ToggleViewLock))).
  assert (H1 : reachable s1).
  { apply reach_step with init; [constructor|]. exact (step_ui init ToggleViewLock I). }
  assert (H2 : reachable (gizmo_drag s1 (-10))).
  { apply reach_step with s1; [exact H1|]. apply step_gizmo; reflexivity. }
  assert (H3 : reachable drag_scenario).
  { apply reach_step with (gizmo_drag s1 (-10)); [exact H2|]. apply step_dragEnd; reflexivity. }
  split; [exact H3|].
  exact (proj1 (proj1 (proj2 slider_updates_keep_ranges) drag_scenario H3)).
Defined.
